(** * FeatureFlagClient: evaluation and fallback protocol

    A shallow embedding of [feature_flag_client.py].  The client posts one
    request per evaluation and turns the response into either the server's
    payload or the caller's default, logging which of the two it chose.

    Python values are an inductive type, exceptions are a result type, and
    the two effects of the code (the HTTP call and the [logging] calls) are
    threaded through an explicit world, so that "no request was sent" and
    "an ERROR record was emitted" are statements about that world. *)

From Stdlib Require Import ZArith List String Ascii Bool Lia.
From Stdlib.Strings Require Import Byte.
From Stdlib Require Import DecimalString.
Import ListNotations.

Set Warnings "-register-all".

Open Scope string_scope.

(** ** Python values *)

(** The values the client handles: what [json.loads] produces (floats
    apart) and what a caller may pass as a default or an assignment id.
    Text is a [string] with one character per code point below 256;
    a [dict] keeps its items in insertion order. *)
Inductive pyval : Type :=
| PNone
| PBool (b : bool)
| PInt (n : Z)
| PStr (s : string)
| PList (xs : list pyval)
| PDict (items : list (string * pyval)).

(** [v is None] *)
Definition is_none (v : pyval) : bool :=
  match v with PNone => true | _ => false end.

(** [isinstance(v, bool)]: [bool] cannot be subclassed and an [int] is not
    a [bool]. *)
Definition isinstance_bool (v : pyval) : bool :=
  match v with PBool _ => true | _ => false end.

(** [isinstance(v, str)] *)
Definition isinstance_str (v : pyval) : bool :=
  match v with PStr _ => true | _ => false end.

(** ** [str()] and [repr()] *)

Definition dquote : ascii := "034"%char.
Definition squote : ascii := "'"%char.
Definition backslash : ascii := "\"%char.

Definition hex_digit (n : N) : ascii :=
  nth (N.to_nat n) (list_ascii_of_string "0123456789abcdef") "0"%char.

(** [\xhh], lower-case digits. *)
Definition hex_escape (n : N) : string :=
  String backslash (String "x" (String (hex_digit (n / 16))
                                  (String (hex_digit (n mod 16)) ""))).

Definition contains_char (c : ascii) (s : list ascii) : bool :=
  existsb (Ascii.eqb c) s.

(** Both reprs use the single quote unless the text holds a single quote
    and no double quote. *)
Definition pick_quote (s : list ascii) : ascii :=
  if contains_char squote s && negb (contains_char dquote s)
  then dquote else squote.

(** Code points below 256 that [str.isprintable] rejects outside ASCII:
    the C1 controls, the no-break space and the soft hyphen. *)
Definition latin1_printable (n : N) : bool :=
  (N.leb 161 n && negb (N.eqb n 173))%N.

(** One character of [repr(str)]. *)
Definition str_repr_char (quote c : ascii) : string :=
  let n := N_of_ascii c in
  if Ascii.eqb c quote || Ascii.eqb c backslash then String backslash (String c "")
  else if N.eqb n 9 then String backslash "t"
  else if N.eqb n 10 then String backslash "n"
  else if N.eqb n 13 then String backslash "r"
  else if N.ltb n 32 || N.eqb n 127 then hex_escape n
  else if N.ltb n 127 then String c ""
  else if latin1_printable n then String c ""
  else hex_escape n.

(** One byte of [repr(bytes)]. *)
Definition bytes_repr_char (quote c : ascii) : string :=
  let n := N_of_ascii c in
  if Ascii.eqb c quote || Ascii.eqb c backslash then String backslash (String c "")
  else if N.eqb n 9 then String backslash "t"
  else if N.eqb n 10 then String backslash "n"
  else if N.eqb n 13 then String backslash "r"
  else if N.ltb n 32 || N.leb 127 n then hex_escape n
  else String c "".

Definition concat_map (f : ascii -> string) (s : list ascii) : string :=
  fold_right (fun c acc => f c ++ acc) "" s.

(** [repr(s)] for a [str]. *)
Definition str_repr (s : string) : string :=
  let cs := list_ascii_of_string s in
  let q := pick_quote cs in
  String q (concat_map (str_repr_char q) cs ++ String q "").

(** A byte that [repr(bytes)] prints as itself when the quote is the
    single quote. *)
Definition plain_byte (c : ascii) : bool :=
  let n := N_of_ascii c in
  (N.leb 32 n && N.ltb n 127 && negb (Ascii.eqb c squote)
   && negb (Ascii.eqb c backslash))%bool.

(** [repr(b)] for [bytes], which is also [str(b)] and what an f-string
    prints for it. *)
Definition bytes_repr (b : list byte) : string :=
  let cs := map ascii_of_byte b in
  let q := pick_quote cs in
  String "b" (String q (concat_map (bytes_repr_char q) cs ++ String q "")).

(** [str.join] with a comma and a space as the separator. *)
Fixpoint join_comma (parts : list string) : string :=
  match parts with
  | [] => ""
  | [p] => p
  | p :: rest => p ++ ", " ++ join_comma rest
  end.

(** [str(n)] for an [int]; the interpreter's optional cap on the number of
    digits is left out. *)
Definition int_str (n : Z) : string := NilZero.string_of_int (Z.to_int n).

(** [repr(v)] *)
Fixpoint py_repr (v : pyval) : string :=
  match v with
  | PNone => "None"
  | PBool true => "True"
  | PBool false => "False"
  | PInt n => int_str n
  | PStr s => str_repr s
  | PList xs => "[" ++ join_comma (map py_repr xs) ++ "]"
  | PDict items =>
      "{" ++ join_comma (map (fun kv => str_repr (fst kv) ++ ": " ++ py_repr (snd kv)) items)
          ++ "}"
  end.

(** [str(v)], which is also what an f-string prints for [{v}]: a [str] is
    itself, every other value prints as its [repr]. *)
Definition py_str (v : pyval) : string :=
  match v with
  | PStr s => s
  | _ => py_repr v
  end.

(** ** Exceptions and results *)

Inductive exn : Type :=
| TypeError (msg : string)
| KeyError (key : string)
| JSONDecodeError (msg : string)
| TransportError (msg : string).

Inductive result (A : Type) : Type :=
| Return (a : A)
| Raise (e : exn).

Arguments Return {A} a.
Arguments Raise {A} e.

(** ** Dictionaries *)

Fixpoint dict_get {V : Type} (d : list (string * V)) (key : string) : option V :=
  match d with
  | [] => None
  | (k, v) :: rest => if String.eqb k key then Some v else dict_get rest key
  end.

(** [d[key] = v]: an existing key keeps its place, a new one goes last. *)
Fixpoint dict_set {V : Type} (d : list (string * V)) (key : string) (v : V)
  : list (string * V) :=
  match d with
  | [] => [(key, v)]
  | (k, w) :: rest =>
      if String.eqb k key then (k, v) :: rest else (k, w) :: dict_set rest key v
  end.

(** [v[key]] with a [str] key, on a value [json.loads] returned: only a
    [dict] can be indexed by a string. *)
Definition py_getitem (v : pyval) (key : string) : result pyval :=
  match v with
  | PDict items =>
      match dict_get items key with
      | Some x => Return x
      | None => Raise (KeyError key)
      end
  | PList _ => Raise (TypeError "list indices must be integers or slices, not str")
  | PStr _ => Raise (TypeError "string indices must be integers, not 'str'")
  | PNone => Raise (TypeError "'NoneType' object is not subscriptable")
  | PBool _ => Raise (TypeError "'bool' object is not subscriptable")
  | PInt _ => Raise (TypeError "'int' object is not subscriptable")
  end.

(** ** Requests, responses and the log *)

Record Request : Type := mkRequest {
  url : string;
  json : list (string * pyval);
  headers : list (string * string)
}.

(** What the code reads of the object [post] returns: three attributes and
    the outcome of subscripting the object itself, [response[key]]. *)
Record Response : Type := mkResponse {
  status_code : Z;
  text : string;
  content : list byte;
  response_getitem : string -> result pyval
}.

(** An [httpx.Response]: the class defines no [__getitem__], so
    subscripting it raises [TypeError] whatever the key. *)
Definition httpx_Response (status : Z) (body_text : string) (body : list byte)
  : Response :=
  {| status_code := status;
     text := body_text;
     content := body;
     response_getitem :=
       fun _ => Raise (TypeError "'Response' object is not subscriptable") |}.

Inductive level : Type := INFO | ERROR.

Record LogRecord : Type := mkLog {
  severity : level;
  message : string
}.

(** [httpx.codes.OK] *)
Definition codes_OK : Z := 200.

(** A reference to the injected [httpx.Client]. *)
Definition client_ref : Type := nat.

(** The attributes [__init__] stores on the instance. *)
Record FeatureFlagClient : Type := mkClient {
  _client : client_ref;
  _curr_env : string
}.

(** ** The world and the monad of the methods *)

(** What a call can read or change: the instance's attributes, the state
    behind the HTTP client, the requests issued so far and the records
    handed to [logging]. *)
Record World (Net : Type) : Type := mkWorld {
  self : FeatureFlagClient;
  net : Net;
  sent : list Request;
  log : list LogRecord
}.

Arguments mkWorld {Net} self net sent log.
Arguments self {Net} w.
Arguments net {Net} w.
Arguments sent {Net} w.
Arguments log {Net} w.

(** A method body: it runs in a world and ends with a value or an
    exception; the effects made before an exception stay. *)
Definition M (Net A : Type) : Type := World Net -> result A * World Net.

Definition ret {Net A : Type} (a : A) : M Net A := fun w => (Return a, w).

Definition raise {Net A : Type} (e : exn) : M Net A := fun w => (Raise e, w).

Definition bind {Net A B : Type} (m : M Net A) (f : A -> M Net B) : M Net B :=
  fun w =>
    match m w with
    | (Return a, w') => f a w'
    | (Raise e, w') => (Raise e, w')
    end.

Notation "x <- m ;; k" := (bind m (fun x => k))
  (at level 61, m at next level, right associativity).
Notation "m ;;; k" := (bind m (fun _ => k))
  (at level 61, right associativity).

(** A pure computation that may raise. *)
Definition lift {Net A : Type} (r : result A) : M Net A := fun w => (r, w).

Definition get_client {Net : Type} : M Net client_ref :=
  fun w => (Return (_client (self w)), w).

Definition get_curr_env {Net : Type} : M Net string :=
  fun w => (Return (_curr_env (self w)), w).

Definition set_client {Net : Type} (c : client_ref) : M Net unit :=
  fun w => (Return tt,
            mkWorld (mkClient c (_curr_env (self w))) (net w) (sent w) (log w)).

Definition set_curr_env {Net : Type} (e : string) : M Net unit :=
  fun w => (Return tt,
            mkWorld (mkClient (_client (self w)) e) (net w) (sent w) (log w)).

Definition logging_error {Net : Type} (msg : string) : M Net unit :=
  fun w => (Return tt, mkWorld (self w) (net w) (sent w) (log w ++ [mkLog ERROR msg])).

Definition logging_info {Net : Type} (msg : string) : M Net unit :=
  fun w => (Return tt, mkWorld (self w) (net w) (sent w) (log w ++ [mkLog INFO msg])).

(** ** The client *)

Section Client.

Context {Net : Type}.

(** [client.post(url, json=..., headers=...)]: the transport answers with
    a response or fails, and may change its own state. *)
Variable post : Net -> client_ref -> Request -> result Response * Net.

(** [json.loads] *)
Variable json_loads : string -> result pyval.

Definition client_post (c : client_ref) (u : string)
           (j : list (string * pyval)) (h : list (string * string))
  : M Net Response :=
  fun w =>
    let req := mkRequest u j h in
    let (r, n) := post (net w) c req in
    (r, mkWorld (self w) n (sent w ++ [req]) (log w)).

Definition __init__ (http_client : client_ref) (curr_env : string) : M Net unit :=
  set_client http_client ;;;
  set_curr_env curr_env.

Definition _get_basic_json_data (assignment_id : pyval)
  : M Net (list (string * pyval)) :=
  ret [].

Definition _evaluate_feature_flag_variation
           (flag_key : string) (default_value assignment_id : pyval)
  : M Net pyval :=
  curr_env <- get_curr_env ;;
  let url := "/api/flags/" ++ flag_key ++ "/env/" ++ curr_env ++ "/users/" in
  basic_json_data <- _get_basic_json_data assignment_id ;;
  let headers := [("Content-Type", "application/json")] in
  let json_data :=
    dict_set basic_json_data "defaultValue" (PStr (py_str default_value)) in
  client <- get_client ;;
  response <- client_post client url json_data headers ;;
  if Z.eqb (status_code response) codes_OK then
    response_text <- lift (json_loads (text response)) ;;
    variation_name <- lift (response_getitem response "flagValue") ;;
    variation_value <- lift (py_getitem response_text "payload") ;;
    if is_none variation_name then
      curr_env <- get_curr_env ;;
      logging_error
        ("flag_key=" ++ flag_key ++ " not found "
         ++ "or inactive in current env=" ++ curr_env ++ ", "
         ++ "falling back to default_value=" ++ py_str default_value ++ ".") ;;;
      ret default_value
    else if is_none variation_value then
      logging_info
        ("flag_key=" ++ flag_key ++ " evaluates to "
         ++ "variation_value=" ++ py_str variation_value ++ ", "
         ++ "falling back to default_value=" ++ py_str default_value ++ ".") ;;;
      ret default_value
    else
      logging_info
        ("flag_key=" ++ flag_key ++ " evaluates to a valid "
         ++ "variation_value=" ++ py_str variation_value ++ ".") ;;;
      ret variation_value
  else
    logging_error
      ("Failed to evaluate feature flag variation. "
       ++ "Using the default_value=" ++ py_str default_value ++ ". "
       ++ "Error message: " ++ bytes_repr (content response) ++ ". ") ;;;
    ret default_value.

Definition evaluate_boolean_variation
           (flag_key : string) (default_value assignment_id : pyval)
  : M Net pyval :=
  if isinstance_bool default_value || is_none default_value then
    _evaluate_feature_flag_variation flag_key default_value assignment_id
  else raise (TypeError "'default_value' must be None or a boolean").

Definition evaluate_string_variation
           (flag_key : string) (default_value assignment_id : pyval)
  : M Net pyval :=
  if isinstance_str default_value || is_none default_value then
    _evaluate_feature_flag_variation flag_key default_value assignment_id
  else raise (TypeError "'default_value' must be a non-empty string").

End Client.

(** The request one evaluation issues, as lines 96 to 105 assemble it from
    an empty base mapping; [evaluate_sends] below checks it against
    [_evaluate_feature_flag_variation]. *)
Definition request_for (this : FeatureFlagClient) (flag_key : string)
           (default_value : pyval) : Request :=
  mkRequest ("/api/flags/" ++ flag_key ++ "/env/" ++ _curr_env this ++ "/users/")
            [("defaultValue", PStr (py_str default_value))]
            [("Content-Type", "application/json")].

(** What the transport answers to the request of this call. *)
Definition answer {Net : Type}
           (post : Net -> client_ref -> Request -> result Response * Net)
           (w : World Net) (flag_key : string) (default_value : pyval)
  : result Response * Net :=
  post (net w) (_client (self w)) (request_for (self w) flag_key default_value).

(** The world right after the transport answered [req]. *)
Definition after_post {Net : Type} (w : World Net) (req : Request) (n : Net)
  : World Net :=
  mkWorld (self w) n (sent w ++ [req]) (log w).

Definition emit {Net : Type} (w : World Net) (lvl : level) (msg : string)
  : World Net :=
  mkWorld (self w) (net w) (sent w) (log w ++ [mkLog lvl msg]).

(** ** A scripted transport and a table decoder

    Stand-ins for the two collaborators, used to run the client on concrete
    exchanges: the transport replays a list of prepared outcomes, the
    decoder knows the parse of a few body texts and rejects the rest. *)

Definition scripted_post (script : list (result Response)) (c : client_ref)
           (req : Request) : result Response * list (result Response) :=
  match script with
  | [] => (Raise (TransportError "connection refused"), [])
  | r :: rest => (r, rest)
  end.

Definition table_loads (table : list (string * pyval)) (s : string)
  : result pyval :=
  match dict_get table s with
  | Some v => Return v
  | None => Raise (JSONDecodeError "Expecting value")
  end.

(** A JSON string literal. *)
Definition q (s : string) : string := String dquote (s ++ String dquote "").

Definition body_found : string :=
  "{" ++ q "flagValue" ++ ": " ++ q "v1" ++ ", " ++ q "payload" ++ ": true}".
Definition body_not_found : string :=
  "{" ++ q "flagValue" ++ ": null, " ++ q "payload" ++ ": null}".
Definition body_null_payload : string :=
  "{" ++ q "flagValue" ++ ": " ++ q "v1" ++ ", " ++ q "payload" ++ ": null}".
Definition body_no_payload : string :=
  "{" ++ q "flagValue" ++ ": " ++ q "v1" ++ "}".
Definition body_garbage : string := "<html>".

Definition parsed_found : pyval :=
  PDict [("flagValue", PStr "v1"); ("payload", PBool true)].
Definition parsed_not_found : pyval :=
  PDict [("flagValue", PNone); ("payload", PNone)].
Definition parsed_null_payload : pyval :=
  PDict [("flagValue", PStr "v1"); ("payload", PNone)].
Definition parsed_no_payload : pyval :=
  PDict [("flagValue", PStr "v1")].

Definition sample_loads : string -> result pyval :=
  table_loads [(body_found, parsed_found);
               (body_not_found, parsed_not_found);
               (body_null_payload, parsed_null_payload);
               (body_no_payload, parsed_no_payload)].

(** A response object that, unlike [httpx.Response], can be subscripted and
    answers from a mapping of its own. *)
Definition mapping_Response (status : Z) (body_text : string)
           (fields : list (string * pyval)) : Response :=
  {| status_code := status;
     text := body_text;
     content := list_byte_of_string body_text;
     response_getitem :=
       fun key => py_getitem (PDict fields) key |}.

(** A freshly built client for environment [prod], with the outcomes the
    transport will replay. *)
Definition world0 (script : list (result Response))
  : World (list (result Response)) :=
  snd (__init__ 1%nat "prod" (mkWorld (mkClient 0%nat "") script [] [])).

Definition ok_response (body_text : string) : Response :=
  httpx_Response 200 body_text (list_byte_of_string body_text).

Definition unavailable : Response :=
  httpx_Response 503 "server error" (list_byte_of_string "server error").


(** * Properties *)

(** ** Printing *)

Lemma py_str_None : py_str PNone = "None".
Proof. reflexivity. Qed.

Lemma py_str_bool (x : bool) :
  py_str (PBool x) = if x then "True" else "False".
Proof. destruct x; reflexivity. Qed.

Lemma py_str_str (s : string) : py_str (PStr s) = s.
Proof. reflexivity. Qed.

Lemma dict_get_set {V : Type} (d : list (string * V)) (key : string) (v : V) :
  dict_get (dict_set d key v) key = Some v.
Proof.
  induction d as [| [k w] rest IH]; simpl.
  - now rewrite String.eqb_refl.
  - destruct (String.eqb k key) eqn:E; simpl; rewrite E; auto.
Qed.

Lemma bytes_repr_char_plain (c : ascii) :
  plain_byte c = true -> bytes_repr_char squote c = String c "".
Proof.
  unfold plain_byte, bytes_repr_char; cbv zeta.
  intros H.
  repeat (apply andb_prop in H; destruct H as [H ?]).
  apply N.leb_le in H. 
  repeat match goal with
         | X : negb _ = true |- _ => apply negb_true_iff in X; rewrite X
         | X : N.ltb _ _ = true |- _ => apply N.ltb_lt in X
         end.
  cbn [orb].
  repeat match goal with
         | |- context [N.eqb ?a ?b] =>
             destruct (N.eqb_spec a b); [lia |]
         end.
  destruct (N.ltb_spec (N_of_ascii c) 32); [lia |].
  destruct (N.leb_spec 127 (N_of_ascii c)); [lia |].
  reflexivity.
Qed.

Lemma plain_has_no_quote (cs : list ascii) :
  forallb plain_byte cs = true -> contains_char squote cs = false.
Proof.
  unfold contains_char.
  induction cs as [| c cs IH]; cbn [forallb existsb]; [reflexivity |].
  intros H. apply andb_prop in H. destruct H as [Hc Hcs].
  rewrite (IH Hcs), orb_false_r.
  unfold plain_byte in Hc; cbv zeta in Hc.
  repeat (apply andb_prop in Hc; destruct Hc as [Hc ?]).
  rewrite Ascii.eqb_sym.
  now apply negb_true_iff.
Qed.

Lemma concat_map_plain (cs : list ascii) :
  forallb plain_byte cs = true ->
  concat_map (bytes_repr_char squote) cs = string_of_list_ascii cs.
Proof.
  unfold concat_map.
  induction cs as [| c cs IH]; cbn [forallb fold_right string_of_list_ascii];
    [reflexivity |].
  intros H. apply andb_prop in H. destruct H as [Hc Hcs].
  now rewrite (bytes_repr_char_plain c Hc), (IH Hcs).
Qed.

(** Printable ASCII content without quote or backslash is printed
    literally, between [b'] and [']. *)
Lemma bytes_repr_plain (bs : list byte) :
  forallb plain_byte (map ascii_of_byte bs) = true ->
  bytes_repr bs
  = "b'" ++ string_of_list_ascii (map ascii_of_byte bs) ++ "'".
Proof.
  intros H. unfold bytes_repr, pick_quote; cbv zeta.
  rewrite (plain_has_no_quote _ H). cbn [andb].
  now rewrite (concat_map_plain _ H).
Qed.

(** ** Construction *)

(** [__init__] stores its two arguments and does nothing else. *)
Lemma init_stores {Net : Type} (c : client_ref) (e : string) (w : World Net) :
  __init__ c e w = (Return tt, mkWorld (mkClient c e) (net w) (sent w) (log w)).
Proof. reflexivity. Qed.

(** ** One evaluation, step by step *)

Ltac run :=
  unfold evaluate_boolean_variation, evaluate_string_variation,
    _evaluate_feature_flag_variation, _get_basic_json_data, client_post,
    bind, ret, raise, lift, get_curr_env, get_client,
    logging_error, logging_info, request_for, after_post, emit, codes_OK;
  cbn [dict_set fst snd self net sent log].

Section Properties.

Context {Net : Type}.
Variable post : Net -> client_ref -> Request -> result Response * Net.
Variable json_loads : string -> result pyval.

Local Abbreviation evaluate := (_evaluate_feature_flag_variation post json_loads).
Local Abbreviation evaluate_boolean := (evaluate_boolean_variation post json_loads).
Local Abbreviation evaluate_string := (evaluate_string_variation post json_loads).

(** A transport failure propagates; nothing is logged. *)
Lemma evaluate_transport_failure flag_key default_value assignment_id w e n :
  answer post w flag_key default_value = (Raise e, n) ->
  evaluate flag_key default_value assignment_id w
  = (Raise e, after_post w (request_for (self w) flag_key default_value) n).
Proof.
  unfold answer. run. intros ->. reflexivity.
Qed.

(** Any status but 200: the default, and one ERROR record. *)
Lemma evaluate_not_ok flag_key default_value assignment_id w resp n :
  answer post w flag_key default_value = (Return resp, n) ->
  status_code resp <> codes_OK ->
  evaluate flag_key default_value assignment_id w
  = (Return default_value,
     emit (after_post w (request_for (self w) flag_key default_value) n) ERROR
       ("Failed to evaluate feature flag variation. "
        ++ "Using the default_value=" ++ py_str default_value ++ ". "
        ++ "Error message: " ++ bytes_repr (content resp) ++ ". ")).
Proof.
  unfold answer. run. intros -> Hs.
  apply Z.eqb_neq in Hs. unfold codes_OK in Hs. rewrite Hs. reflexivity.
Qed.

(** Status 200 and a body that does not decode. *)
Lemma evaluate_undecodable flag_key default_value assignment_id w resp n e :
  answer post w flag_key default_value = (Return resp, n) ->
  status_code resp = codes_OK ->
  json_loads (text resp) = Raise e ->
  evaluate flag_key default_value assignment_id w
  = (Raise e, after_post w (request_for (self w) flag_key default_value) n).
Proof.
  unfold answer. run. intros -> Hs Hj.
  rewrite Hs, Hj. reflexivity.
Qed.

(** Status 200, a decoded body, and [response[...]] raising. *)
Lemma evaluate_subscript_fails flag_key default_value assignment_id w resp n body e :
  answer post w flag_key default_value = (Return resp, n) ->
  status_code resp = codes_OK ->
  json_loads (text resp) = Return body ->
  response_getitem resp "flagValue" = Raise e ->
  evaluate flag_key default_value assignment_id w
  = (Raise e, after_post w (request_for (self w) flag_key default_value) n).
Proof.
  unfold answer. run. intros -> Hs Hj Hg.
  rewrite Hs, Hj, Hg. reflexivity.
Qed.

(** Status 200, the indicator read, and the payload lookup raising. *)
Lemma evaluate_payload_fails flag_key default_value assignment_id w resp n body name e :
  answer post w flag_key default_value = (Return resp, n) ->
  status_code resp = codes_OK ->
  json_loads (text resp) = Return body ->
  response_getitem resp "flagValue" = Return name ->
  py_getitem body "payload" = Raise e ->
  evaluate flag_key default_value assignment_id w
  = (Raise e, after_post w (request_for (self w) flag_key default_value) n).
Proof.
  unfold answer. run. intros -> Hs Hj Hg Hp.
  rewrite Hs, Hj, Hg, Hp. reflexivity.
Qed.


(** Every evaluation issues exactly one request, the one of
    [request_for]. *)
Lemma evaluate_sends flag_key default_value assignment_id w :
  sent (snd (evaluate flag_key default_value assignment_id w))
  = (sent w ++ [request_for (self w) flag_key default_value])%list.
Proof.
  run.
  destruct (post _ _ _) as [[resp | e] n]; [| reflexivity].
  destruct (Z.eqb _ _); [| reflexivity].
  destruct (json_loads _); [| reflexivity].
  destruct (response_getitem _ _) as [name |]; [| reflexivity].
  destruct (py_getitem _ _) as [value |]; [| reflexivity].
  destruct (is_none name); [reflexivity |].
  destruct (is_none value); reflexivity.
Qed.

(** No evaluation writes an attribute of the instance. *)
Lemma evaluate_keeps_self flag_key default_value assignment_id w :
  self (snd (evaluate flag_key default_value assignment_id w)) = self w.
Proof.
  run.
  destruct (post _ _ _) as [[resp | e] n]; [| reflexivity].
  destruct (Z.eqb _ _); [| reflexivity].
  destruct (json_loads _); [| reflexivity].
  destruct (response_getitem _ _) as [name |]; [| reflexivity].
  destruct (py_getitem _ _) as [value |]; [| reflexivity].
  destruct (is_none name); [reflexivity |].
  destruct (is_none value); reflexivity.
Qed.

(** The typed entry points only guard the default and delegate. *)
Lemma boolean_delegates flag_key default_value assignment_id :
  isinstance_bool default_value || is_none default_value = true ->
  evaluate_boolean flag_key default_value assignment_id
  = evaluate flag_key default_value assignment_id.
Proof.
  intros H. unfold evaluate_boolean_variation. now rewrite H.
Qed.

Lemma string_delegates flag_key default_value assignment_id :
  isinstance_str default_value || is_none default_value = true ->
  evaluate_string flag_key default_value assignment_id
  = evaluate flag_key default_value assignment_id.
Proof.
  intros H. unfold evaluate_string_variation. now rewrite H.
Qed.

(** The value returned is decided by the arguments and by what the
    transport answered, not by the world the call ran in. *)
Lemma evaluate_result_by_answer flag_key default_value assignment_id
      (w1 w2 : World Net) :
  fst (answer post w1 flag_key default_value)
  = fst (answer post w2 flag_key default_value) ->
  fst (evaluate flag_key default_value assignment_id w1)
  = fst (evaluate flag_key default_value assignment_id w2).
Proof.
  unfold answer. run.
  destruct (post (net w1) _ _) as [r1 n1], (post (net w2) _ _) as [r2 n2].
  cbn [fst]. intros ->.
  destruct r2 as [resp | e]; [| reflexivity].
  destruct (Z.eqb _ _); [| reflexivity].
  destruct (json_loads _); [| reflexivity].
  destruct (response_getitem _ _) as [name |]; [| reflexivity].
  destruct (py_getitem _ _) as [value |]; [| reflexivity].
  destruct (is_none name); [reflexivity |].
  destruct (is_none value); reflexivity.
Qed.

(** ** The claims *)

(** C2 (as amended): [_get_basic_json_data] returns the empty mapping for
    every assignment identifier, so the JSON body of the request is exactly
    the one-entry mapping from [defaultValue] to [str(default_value)], and
    the request issued is the same whatever the assignment identifier. *)
Theorem C2_request_body_ignores_assignment_id
        flag_key default_value (w : World Net) :
  (forall assignment_id,
      _get_basic_json_data assignment_id w = (Return [], w))
  /\ (forall assignment_id,
         exists req,
           sent (snd (evaluate flag_key default_value assignment_id w))
           = (sent w ++ [req])%list
           /\ json req = [("defaultValue", PStr (py_str default_value))])
  /\ (forall a1 a2,
         sent (snd (evaluate flag_key default_value a1 w))
         = sent (snd (evaluate flag_key default_value a2 w))).
Proof.
  split; [reflexivity | split].
  - intros a. eexists. split; [apply evaluate_sends | reflexivity].
  - intros a1 a2. now rewrite !evaluate_sends.
Qed.

(** C4: a default that is neither [None] nor a [bool] makes
    [evaluate_boolean_variation] raise [TypeError], and a default that is
    neither [None] nor a [str] makes [evaluate_string_variation] raise
    [TypeError]; in both cases the world is left as it was, so no request
    was issued. *)
Theorem C4_wrong_default_type_raises_before_any_request
        flag_key default_value assignment_id (w : World Net) :
  default_value <> PNone ->
  ((forall x, default_value <> PBool x) ->
   evaluate_boolean flag_key default_value assignment_id w
   = (Raise (TypeError "'default_value' must be None or a boolean"), w))
  /\ ((forall s, default_value <> PStr s) ->
      evaluate_string flag_key default_value assignment_id w
      = (Raise (TypeError "'default_value' must be a non-empty string"), w)).
Proof.
  intros Hn. split; intros H.
  - destruct default_value; try reflexivity; [now elim Hn | now elim (H b)].
  - destruct default_value; try reflexivity; [now elim Hn | now elim (H s)].
Qed.

(** C5: whenever the response's status is not 200, the evaluation returns
    the default and logs one ERROR record whose message names the failure,
    the default in use and the raw response content. *)
Theorem C5_http_failure_returns_default_and_logs_error
        flag_key default_value assignment_id w resp n :
  answer post w flag_key default_value = (Return resp, n) ->
  status_code resp <> 200%Z ->
  fst (evaluate flag_key default_value assignment_id w) = Return default_value
  /\ log (snd (evaluate flag_key default_value assignment_id w))
     = (log w ++
        [mkLog ERROR
           ("Failed to evaluate feature flag variation. Using the default_value="
            ++ py_str default_value ++ ". Error message: "
            ++ bytes_repr (content resp) ++ ". ")])%list.
Proof.
  intros Ha Hs.
  rewrite (evaluate_not_ok flag_key default_value assignment_id w resp n Ha Hs).
  split; reflexivity.
Qed.

(** C6: every evaluation issues one request whose JSON body has a
    [defaultValue] entry holding [str(default_value)]: [True] and [False]
    for the booleans, the text itself for a string, and [None] when the
    default is absent. *)
Theorem C6_defaultValue_field_is_str_of_default
        flag_key default_value assignment_id (w : World Net) :
  (exists req,
      sent (snd (evaluate flag_key default_value assignment_id w))
      = (sent w ++ [req])%list
      /\ dict_get (json req) "defaultValue" = Some (PStr (py_str default_value)))
  /\ py_str (PBool true) = "True"
  /\ py_str (PBool false) = "False"
  /\ py_str PNone = "None"
  /\ (forall s, py_str (PStr s) = s).
Proof.
  split.
  - eexists. split; [apply evaluate_sends |].
    unfold request_for. cbn [json dict_get]. now rewrite String.eqb_refl.
  - repeat split.
Qed.

(** C7: [evaluate_string_variation] accepts every string default, the empty
    one included: the call is the shared evaluation itself, and a request
    is issued. *)
Theorem C7_any_string_default_is_accepted
        flag_key (s : string) assignment_id (w : World Net) :
  evaluate_string flag_key (PStr s) assignment_id w
  = evaluate flag_key (PStr s) assignment_id w
  /\ evaluate_string flag_key (PStr "") assignment_id w
     = evaluate flag_key (PStr "") assignment_id w
  /\ sent (snd (evaluate_string flag_key (PStr s) assignment_id w))
     = (sent w ++ [request_for (self w) flag_key (PStr s)])%list.
Proof.
  split; [reflexivity | split; [reflexivity |]].
  rewrite string_delegates by reflexivity. apply evaluate_sends.
Qed.

(** C8: on an HTTP 200 response, a body that does not decode, a failing
    lookup of the flag-found indicator and a failing lookup of [payload]
    each end the call with that very exception; nothing is logged and no
    default is returned.  For an [httpx.Response] the indicator lookup
    fails on every decodable body, whatever fields it has or lacks. *)
Theorem C8_decode_and_lookup_errors_propagate
        flag_key default_value assignment_id w resp n :
  answer post w flag_key default_value = (Return resp, n) ->
  status_code resp = 200%Z ->
  let w1 := after_post w (request_for (self w) flag_key default_value) n in
  (forall e,
      json_loads (text resp) = Raise e ->
      evaluate flag_key default_value assignment_id w = (Raise e, w1))
  /\ (forall body e,
         json_loads (text resp) = Return body ->
         response_getitem resp "flagValue" = Raise e ->
         evaluate flag_key default_value assignment_id w = (Raise e, w1))
  /\ (forall body name e,
         json_loads (text resp) = Return body ->
         response_getitem resp "flagValue" = Return name ->
         py_getitem body "payload" = Raise e ->
         evaluate flag_key default_value assignment_id w = (Raise e, w1))
  /\ (forall items name,
         json_loads (text resp) = Return (PDict items) ->
         response_getitem resp "flagValue" = Return name ->
         dict_get items "payload" = None ->
         evaluate flag_key default_value assignment_id w
         = (Raise (KeyError "payload"), w1))
  /\ (forall body,
         json_loads (text resp) = Return body ->
         resp = httpx_Response (status_code resp) (text resp) (content resp) ->
         evaluate flag_key default_value assignment_id w
         = (Raise (TypeError "'Response' object is not subscriptable"), w1)).
Proof.
  intros Ha Hs w1. repeat split.
  - intros e Hj. now apply evaluate_undecodable with (resp := resp).
  - intros body e Hj Hg.
    now apply evaluate_subscript_fails with (resp := resp) (body := body).
  - intros body name e Hj Hg Hp.
    now apply evaluate_payload_fails
      with (resp := resp) (body := body) (name := name).
  - intros items name Hj Hg Hp.
    apply evaluate_payload_fails
      with (resp := resp) (body := PDict items) (name := name); auto.
    cbn [py_getitem]. now rewrite Hp.
  - intros body Hj Hx.
    apply evaluate_subscript_fails with (resp := resp) (body := body); auto.
    now rewrite Hx.
Qed.


(** C10: no call writes an attribute of the instance, and two calls with
    the same arguments that get the same answer from the transport return
    the same result, whatever the worlds they run in. *)
Theorem C10_calls_are_independent
        flag_key default_value assignment_id (w1 w2 : World Net) :
  (forall w,
      self (snd (evaluate flag_key default_value assignment_id w)) = self w
      /\ self (snd (evaluate_boolean flag_key default_value assignment_id w))
         = self w
      /\ self (snd (evaluate_string flag_key default_value assignment_id w))
         = self w)
  /\ (fst (answer post w1 flag_key default_value)
      = fst (answer post w2 flag_key default_value) ->
      fst (evaluate flag_key default_value assignment_id w1)
      = fst (evaluate flag_key default_value assignment_id w2)
      /\ fst (evaluate_boolean flag_key default_value assignment_id w1)
         = fst (evaluate_boolean flag_key default_value assignment_id w2)
      /\ fst (evaluate_string flag_key default_value assignment_id w1)
         = fst (evaluate_string flag_key default_value assignment_id w2)).
Proof.
  split.
  - intros w. split; [apply evaluate_keeps_self |].
    unfold evaluate_boolean_variation, evaluate_string_variation.
    split.
    + destruct (_ || _); [apply evaluate_keeps_self | reflexivity].
    + destruct (_ || _); [apply evaluate_keeps_self | reflexivity].
  - intros Ha.
    pose proof (evaluate_result_by_answer flag_key default_value
                  assignment_id w1 w2 Ha) as E.
    split; [exact E |].
    unfold evaluate_boolean_variation, evaluate_string_variation.
    split.
    + destruct (_ || _); [exact E | reflexivity].
    + destruct (_ || _); [exact E | reflexivity].
Qed.

End Properties.

(** ** Concrete exchanges *)

(** The request every exchange below issues for flag [my-flag]. *)
Lemma request_for_my_flag (d : pyval) :
  request_for (mkClient 1%nat "prod") "my-flag" d
  = mkRequest "/api/flags/my-flag/env/prod/users/"
              [("defaultValue", PStr (py_str d))]
              [("Content-Type", "application/json")].
Proof. reflexivity. Qed.

(** With a response object that can be subscripted, a found flag with a
    payload yields the payload, whatever the default. *)
Lemma found_flag_on_subscriptable_response (d : pyval) :
  fst (_evaluate_feature_flag_variation scripted_post sample_loads
         "my-flag" d PNone
         (world0 [Return (mapping_Response 200 body_found
                            [("flagValue", PStr "v1")])]))
  = Return (PBool true).
Proof. reflexivity. Qed.

(** C1: on the HTTP 200 response whose body parses to a mapping with
    [flagValue] "v1" and [payload] true, [evaluate_boolean_variation] with
    default [False] does not return the payload: line 110 subscripts the
    response object instead of the parsed body and the call ends with
    [TypeError], after the request and without any log record. *)
Theorem C1_found_flag_ends_in_TypeError :
  sample_loads body_found = Return parsed_found
  /\ py_getitem parsed_found "flagValue" = Return (PStr "v1")
  /\ py_getitem parsed_found "payload" = Return (PBool true)
  /\ evaluate_boolean_variation scripted_post sample_loads
       "my-flag" (PBool false) PNone (world0 [Return (ok_response body_found)])
     = (Raise (TypeError "'Response' object is not subscriptable"),
        mkWorld (mkClient 1%nat "prod") []
                [mkRequest "/api/flags/my-flag/env/prod/users/"
                           [("defaultValue", PStr "False")]
                           [("Content-Type", "application/json")]]
                []).
Proof. repeat split. Qed.

(** C2, the claim as stated fails: with assignment identifier [user-42] the
    body sent holds the stringified default only, and it is the body sent
    with [user-43]. *)
Lemma C2_assignment_id_never_reaches_the_body :
  map json
      (sent (snd (evaluate_boolean_variation scripted_post sample_loads
                    "my-flag" PNone (PStr "user-42")
                    (world0 [Return unavailable]))))
  = [[("defaultValue", PStr "None")]]
  /\ sent (snd (evaluate_boolean_variation scripted_post sample_loads
                  "my-flag" PNone (PStr "user-42")
                  (world0 [Return unavailable])))
     = sent (snd (evaluate_boolean_variation scripted_post sample_loads
                    "my-flag" PNone (PStr "user-43")
                    (world0 [Return unavailable]))).
Proof. split; reflexivity. Qed.

(** C3: on the HTTP 200 response whose body parses to a null [flagValue]
    and a null [payload], [evaluate_boolean_variation] with default [False]
    neither returns the default nor logs at ERROR, and on the one whose body
    parses to [flagValue] "v1" and a null [payload],
    [evaluate_string_variation] with default [fallback] neither returns the
    default nor logs at INFO: line 110 subscripts the response object, so
    both calls end with [TypeError] before the fallbacks of lines 113 to
    129 are reached, after the request and without any log record. *)
Theorem C3_null_fields_end_in_TypeError :
  sample_loads body_not_found = Return parsed_not_found
  /\ py_getitem parsed_not_found "flagValue" = Return PNone
  /\ evaluate_boolean_variation scripted_post sample_loads
       "my-flag" (PBool false) PNone
       (world0 [Return (ok_response body_not_found)])
     = (Raise (TypeError "'Response' object is not subscriptable"),
        mkWorld (mkClient 1%nat "prod") []
                [mkRequest "/api/flags/my-flag/env/prod/users/"
                           [("defaultValue", PStr "False")]
                           [("Content-Type", "application/json")]]
                [])
  /\ sample_loads body_null_payload = Return parsed_null_payload
  /\ py_getitem parsed_null_payload "flagValue" = Return (PStr "v1")
  /\ py_getitem parsed_null_payload "payload" = Return PNone
  /\ evaluate_string_variation scripted_post sample_loads
       "my-flag" (PStr "fallback") PNone
       (world0 [Return (ok_response body_null_payload)])
     = (Raise (TypeError "'Response' object is not subscriptable"),
        mkWorld (mkClient 1%nat "prod") []
                [mkRequest "/api/flags/my-flag/env/prod/users/"
                           [("defaultValue", PStr "fallback")]
                           [("Content-Type", "application/json")]]
                []).
Proof. repeat split. Qed.

(** ** The hypotheses are met by concrete exchanges *)

(** An integer default is refused by both entry points. *)
Lemma C4_witness :
  evaluate_boolean_variation scripted_post sample_loads
    "my-flag" (PInt 1) PNone (world0 [Return unavailable])
  = (Raise (TypeError "'default_value' must be None or a boolean"),
     world0 [Return unavailable])
  /\ evaluate_string_variation scripted_post sample_loads
       "my-flag" (PInt 1) PNone (world0 [Return unavailable])
     = (Raise (TypeError "'default_value' must be a non-empty string"),
        world0 [Return unavailable]).
Proof.
  destruct (C4_wrong_default_type_raises_before_any_request
              scripted_post sample_loads "my-flag" (PInt 1) PNone
              (world0 [Return unavailable])) as [Hb Hs].
  - discriminate.
  - split; [apply Hb | apply Hs]; intros; discriminate.
Defined.

(** HTTP 503 with body [server error] and default [True]. *)
Lemma C5_witness :
  fst (_evaluate_feature_flag_variation scripted_post sample_loads
         "my-flag" (PBool true) PNone (world0 [Return unavailable]))
  = Return (PBool true)
  /\ log (snd (_evaluate_feature_flag_variation scripted_post sample_loads
                 "my-flag" (PBool true) PNone (world0 [Return unavailable])))
     = [mkLog ERROR
          "Failed to evaluate feature flag variation. Using the default_value=True. Error message: b'server error'. "].
Proof.
  refine (C5_http_failure_returns_default_and_logs_error
            scripted_post sample_loads "my-flag" (PBool true) PNone
            (world0 [Return unavailable]) unavailable [] eq_refl _).
  discriminate.
Defined.

(** HTTP 200 with a body that is not JSON. *)
Lemma C8_witness :
  evaluate_boolean_variation scripted_post sample_loads
    "my-flag" (PBool true) PNone (world0 [Return (ok_response body_garbage)])
  = (Raise (JSONDecodeError "Expecting value"),
     mkWorld (mkClient 1%nat "prod") []
             [request_for (mkClient 1%nat "prod") "my-flag" (PBool true)] []).
Proof.
  refine (proj1 (C8_decode_and_lookup_errors_propagate
                   scripted_post sample_loads "my-flag" (PBool true) PNone
                   (world0 [Return (ok_response body_garbage)])
                   (ok_response body_garbage) [] eq_refl eq_refl)
                (JSONDecodeError "Expecting value") eq_refl).
Defined.


(** The same answer on a fresh client and on one that has already served a
    call in another environment. *)
Lemma C10_witness :
  fst (evaluate_boolean_variation scripted_post sample_loads
         "my-flag" (PBool true) PNone (world0 [Return unavailable]))
  = fst (evaluate_boolean_variation scripted_post sample_loads
           "my-flag" (PBool true) PNone
           (mkWorld (mkClient 7%nat "staging")
                    [Return unavailable; Return (ok_response body_found)]
                    [request_for (mkClient 7%nat "staging") "other" PNone]
                    [mkLog INFO "flag_key=other evaluates to a valid variation_value=on."])).
Proof.
  refine (proj1 (proj2 (proj2 (C10_calls_are_independent
            scripted_post sample_loads "my-flag" (PBool true) PNone
            (world0 [Return unavailable])
            (mkWorld (mkClient 7%nat "staging")
                     [Return unavailable; Return (ok_response body_found)]
                     [request_for (mkClient 7%nat "staging") "other" PNone]
                     [mkLog INFO "flag_key=other evaluates to a valid variation_value=on."]))
            eq_refl))).
Defined.

(** * Further properties of the client *)

Lemma string_app_assoc (a b c : string) : (a ++ b) ++ c = a ++ (b ++ c).
Proof.
  induction a as [| x a IH]; cbn [String.append]; [reflexivity |].
  now rewrite IH.
Qed.

Lemma string_app_length (a b : string) :
  String.length (a ++ b) = (String.length a + String.length b)%nat.
Proof.
  induction a as [| x a IH]; cbn [String.append String.length]; [reflexivity |].
  now rewrite IH.
Qed.

Lemma py_str_idempotent (v : pyval) : py_str (PStr (py_str v)) = py_str v.
Proof. reflexivity. Qed.

Section Further.

Context {Net : Type}.
Variable post : Net -> client_ref -> Request -> result Response * Net.
Variable json_loads : string -> result pyval.

Local Abbreviation evaluate := (_evaluate_feature_flag_variation post json_loads).
Local Abbreviation evaluate_boolean := (evaluate_boolean_variation post json_loads).
Local Abbreviation evaluate_string := (evaluate_string_variation post json_loads).

(** The world an evaluation ends in. *)
Lemma evaluate_footprint flag_key default_value assignment_id (w : World Net) :
  let w1 := after_post w (request_for (self w) flag_key default_value)
                       (snd (answer post w flag_key default_value)) in
  (exists v lvl msg,
      evaluate flag_key default_value assignment_id w
      = (Return v, emit w1 lvl msg))
  \/ (exists e,
         evaluate flag_key default_value assignment_id w = (Raise e, w1)).
Proof.
  unfold answer. run.
  destruct (post _ _ _) as [[resp | e] n]; cbn [snd];
    [| right; eexists; reflexivity].
  destruct (Z.eqb _ _); [| left; do 3 eexists; reflexivity].
  destruct (json_loads _); [| right; eexists; reflexivity].
  destruct (response_getitem _ _) as [name |]; [| right; eexists; reflexivity].
  destruct (py_getitem _ _) as [value |]; [| right; eexists; reflexivity].
  left.
  destruct (is_none name); [do 3 eexists; reflexivity |].
  destruct (is_none value); do 3 eexists; reflexivity.
Qed.

(** The whole effect of one evaluation: the transport is asked once and
    the request recorded; a call that returns has logged exactly one record
    on top of that, a call that raises has logged none; and an ERROR record
    only ever goes with the default. *)
Theorem X1_one_request_and_one_record_per_return
        flag_key default_value assignment_id (w : World Net) :
  let w1 := after_post w (request_for (self w) flag_key default_value)
                       (snd (answer post w flag_key default_value)) in
  (exists v lvl msg,
      evaluate flag_key default_value assignment_id w
      = (Return v, emit w1 lvl msg)
      /\ (lvl = ERROR -> v = default_value))
  \/ (exists e,
         evaluate flag_key default_value assignment_id w = (Raise e, w1)).
Proof.
  unfold answer. run.
  destruct (post _ _ _) as [[resp | e] n]; cbn [snd];
    [| right; eexists; reflexivity].
  destruct (Z.eqb _ _);
    [| left; do 3 eexists; split; [reflexivity | reflexivity]].
  destruct (json_loads _); [| right; eexists; reflexivity].
  destruct (response_getitem _ _) as [name |]; [| right; eexists; reflexivity].
  destruct (py_getitem _ _) as [value |]; [| right; eexists; reflexivity].
  left.
  destruct (is_none name);
    [do 3 eexists; split; [reflexivity | reflexivity] |].
  destruct (is_none value); do 3 eexists; split;
    try reflexivity; discriminate.
Qed.

(** What an evaluation that returns can return. *)
Lemma evaluate_returns_default_or_payload
      flag_key default_value assignment_id (w : World Net) v :
  fst (evaluate flag_key default_value assignment_id w) = Return v ->
  v = default_value
  \/ (v <> PNone
      /\ exists resp body,
          fst (answer post w flag_key default_value) = Return resp
          /\ status_code resp = 200%Z
          /\ json_loads (text resp) = Return body
          /\ py_getitem body "payload" = Return v).
Proof.
  unfold answer. run.
  destruct (post _ _ _) as [[resp | e] n]; cbn [fst]; [| discriminate].
  destruct (Z.eqb _ _) eqn:Es; cbn [fst];
    [| intros H; left; congruence].
  apply Z.eqb_eq in Es.
  destruct (json_loads _) as [body |] eqn:Ej; cbn [fst]; [| discriminate].
  destruct (response_getitem _ _) as [name |]; cbn [fst]; [| discriminate].
  destruct (py_getitem _ _) as [value |] eqn:Ep; cbn [fst]; [| discriminate].
  destruct (is_none name); cbn [fst]; [intros H; left; congruence |].
  destruct (is_none value) eqn:En; cbn [fst]; [intros H; left; congruence |].
  intros H. injection H as <-. right. split.
  - intros ->. discriminate.
  - exists resp, body. auto.
Qed.

(** Whatever a typed entry point returns is the caller's default or a
    non-null payload of a decoded HTTP 200 body; so with a default that is
    not [None] the call never returns [None]. *)
Theorem X2_result_is_default_or_non_null_payload
        flag_key default_value assignment_id (w : World Net) v :
  fst (evaluate_boolean flag_key default_value assignment_id w) = Return v
  \/ fst (evaluate_string flag_key default_value assignment_id w) = Return v ->
  (v = default_value
   \/ exists resp body,
       fst (answer post w flag_key default_value) = Return resp
       /\ status_code resp = 200%Z
       /\ json_loads (text resp) = Return body
       /\ py_getitem body "payload" = Return v)
  /\ (default_value <> PNone -> v <> PNone).
Proof.
  intros H.
  assert (fst (evaluate flag_key default_value assignment_id w) = Return v) as E.
  { unfold evaluate_boolean_variation, evaluate_string_variation in H.
    destruct H as [H | H];
      destruct (_ || _); solve [exact H | discriminate H]. }
  apply evaluate_returns_default_or_payload in E.
  destruct E as [-> | [Hv (resp & body & Hrest)]].
  - split; [now left | auto].
  - split; [right; now exists resp, body | auto].
Qed.

(** A failure of the transport is not caught: through either entry point
    the exception reaches the caller, the request stays recorded, nothing is
    logged and the default is not used. *)
Theorem X4_transport_failure_reaches_the_caller
        flag_key default_value assignment_id w e n :
  answer post w flag_key default_value = (Raise e, n) ->
  let out :=
    (@Raise pyval e,
     after_post w (request_for (self w) flag_key default_value) n) in
  (isinstance_bool default_value || is_none default_value = true ->
   evaluate_boolean flag_key default_value assignment_id w = out)
  /\ (isinstance_str default_value || is_none default_value = true ->
      evaluate_string flag_key default_value assignment_id w = out).
Proof.
  intros Ha out. split; intros Hd.
  - rewrite boolean_delegates by exact Hd.
    now apply evaluate_transport_failure.
  - rewrite string_delegates by exact Hd.
    now apply evaluate_transport_failure.
Qed.

(** When the status is not 200 and the response content is printable ASCII
    without quote or backslash, the ERROR message carries the content
    literally, between [b'] and [']. *)
Theorem X5_plain_content_is_logged_literally
        flag_key default_value assignment_id w resp n :
  answer post w flag_key default_value = (Return resp, n) ->
  status_code resp <> 200%Z ->
  forallb plain_byte (map ascii_of_byte (content resp)) = true ->
  log (snd (evaluate flag_key default_value assignment_id w))
  = (log w ++
     [mkLog ERROR
        ("Failed to evaluate feature flag variation. Using the default_value="
         ++ py_str default_value ++ ". Error message: b'"
         ++ string_of_list_ascii (map ascii_of_byte (content resp))
         ++ "'. ")])%list.
Proof.
  intros Ha Hs Hc.
  rewrite (evaluate_not_ok post json_loads flag_key default_value
             assignment_id w resp n Ha Hs).
  cbn [snd emit after_post log].
  rewrite (bytes_repr_plain _ Hc).
  do 2 f_equal. cbn [String.append]. do 2 f_equal.
  rewrite !string_app_assoc. reflexivity.
Qed.

(** The default travels as text only: a default and the string that
    spells it ask the transport the same question, so [True] and the string
    of that spelling, or an absent default and the string [None], cannot
    be told apart by the server. *)
Theorem X6_default_and_its_spelling_send_the_same_request
        flag_key default_value assignment_id (w : World Net) :
  answer post w flag_key default_value
  = answer post w flag_key (PStr (py_str default_value))
  /\ sent (snd (evaluate flag_key default_value assignment_id w))
     = sent (snd (evaluate flag_key (PStr (py_str default_value))
                    assignment_id w))
  /\ (forall x : bool,
         sent (snd (evaluate_boolean flag_key (PBool x) assignment_id w))
         = sent (snd (evaluate_string flag_key
                        (PStr (if x then "True" else "False"))
                        assignment_id w)))
  /\ sent (snd (evaluate_boolean flag_key PNone assignment_id w))
     = sent (snd (evaluate_string flag_key (PStr "None") assignment_id w)).
Proof.
  split; [reflexivity | split; [| split]].
  - now rewrite !evaluate_sends.
  - intros x. rewrite boolean_delegates, string_delegates by reflexivity.
    rewrite !evaluate_sends. now destruct x.
  - rewrite boolean_delegates, string_delegates by reflexivity.
    now rewrite !evaluate_sends.
Qed.

(** Nothing is cached: a call repeated right after one that returned asks
    the transport again with the same request, and returns the same value
    whenever the transport gives the same answer. *)
Theorem X7_repeated_call_asks_again
        (call : M Net pyval) flag_key default_value assignment_id
        (w : World Net) v :
  call = evaluate_boolean flag_key default_value assignment_id
  \/ call = evaluate_string flag_key default_value assignment_id ->
  fst (call w) = Return v ->
  let both := (v1 <- call ;; v2 <- call ;; ret (v1, v2)) in
  sent (snd (both w))
  = (sent w ++ [request_for (self w) flag_key default_value;
                request_for (self w) flag_key default_value])%list
  /\ (fst (answer post (snd (call w)) flag_key default_value)
      = fst (answer post w flag_key default_value) ->
      fst (both w) = Return (v, v)).
Proof.
  intros Hc Hv both.
  assert (call = evaluate flag_key default_value assignment_id) as ->.
  { destruct Hc as [-> | ->];
      unfold evaluate_boolean_variation, evaluate_string_variation in *;
      destruct (_ || _); solve [reflexivity | discriminate Hv]. }
  pose proof (evaluate_sends post json_loads flag_key default_value
                assignment_id w) as S1.
  pose proof (evaluate_keeps_self post json_loads flag_key default_value
                assignment_id w) as K1.
  destruct (evaluate flag_key default_value assignment_id w) as [r1 w'] eqn:E1.
  cbn [fst snd] in *. subst r1.
  pose proof (evaluate_sends post json_loads flag_key default_value
                assignment_id w') as S2.
  destruct (evaluate flag_key default_value assignment_id w') as [r2 w''] eqn:E2.
  cbn [snd] in S2.
  assert (both w
          = match r2 with
            | Return v2 => (Return (v, v2), w'')
            | Raise x => (Raise x, w'')
            end) as B.
  { subst both. unfold bind, ret. now rewrite E1, E2. }
  rewrite B. split.
  - destruct r2; cbn [snd]; rewrite S2, S1, K1, <- app_assoc; reflexivity.
  - intros Ha.
    pose proof (evaluate_result_by_answer post json_loads flag_key
                  default_value assignment_id w' w Ha) as E.
    rewrite E2, E1 in E. cbn [fst] in E. subst r2. reflexivity.
Qed.

(** Construction does no I/O, and an evaluation made after it asks the
    client given at construction, on the path of the environment given at
    construction, and leaves both attributes as construction set them. *)
Theorem X8_construction_then_evaluation
        (c : client_ref) (e : string)
        flag_key default_value assignment_id (w : World Net) :
  let req :=
    mkRequest ("/api/flags/" ++ flag_key ++ "/env/" ++ e ++ "/users/")
              [("defaultValue", PStr (py_str default_value))]
              [("Content-Type", "application/json")] in
  let w' :=
    snd ((__init__ c e ;;; evaluate flag_key default_value assignment_id) w) in
  (net (snd (__init__ c e w)) = net w
   /\ sent (snd (__init__ c e w)) = sent w
   /\ log (snd (__init__ c e w)) = log w)
  /\ sent w' = (sent w ++ [req])%list
  /\ net w' = snd (post (net w) c req)
  /\ self w' = mkClient c e.
Proof.
  intros req w'. split; [repeat split |].
  assert (w' = snd (evaluate flag_key default_value assignment_id
                      (mkWorld (mkClient c e) (net w) (sent w) (log w)))) as ->
      by reflexivity.
  rewrite evaluate_sends, evaluate_keeps_self.
  repeat split.
  destruct (evaluate_footprint flag_key default_value assignment_id
              (mkWorld (mkClient c e) (net w) (sent w) (log w)))
    as [(v & lvl & msg & ->) | (x & ->)]; reflexivity.
Qed.

(** The flag key and the environment are pasted into the path unescaped:
    a flag key holding [/env/] and a shorter key in an environment holding
    [/env/] produce the very same request. *)
Theorem X9_path_segments_are_not_escaped
        (a b c : string) (cl : client_ref) default_value assignment_id
        (n : Net) (s : list Request) (l : list LogRecord) :
  a ++ "/env/" ++ b <> a
  /\ exists req,
      sent (snd (evaluate (a ++ "/env/" ++ b) default_value assignment_id
                   (mkWorld (mkClient cl c) n s l)))
      = (s ++ [req])%list
      /\ sent (snd (evaluate a default_value assignment_id
                      (mkWorld (mkClient cl (b ++ "/env/" ++ c)) n s l)))
         = (s ++ [req])%list.
Proof.
  split.
  - intros H. apply (f_equal String.length) in H.
    rewrite string_app_length in H. cbn [String.append String.length] in H.
    lia.
  - eexists. rewrite !evaluate_sends. split; [reflexivity |].
    unfold request_for. cbn [self _curr_env sent].
    f_equal. f_equal.
    rewrite !string_app_assoc. reflexivity.
Qed.

(** With an [httpx.Response] the HTTP 200 path never returns: whatever the
    body, either entry point ends with the decoder's exception or with the
    [TypeError] of subscripting the response, after the request and without
    any log record. *)
Theorem X10_httpx_ok_response_never_returns
        flag_key default_value assignment_id w body_text body_bytes n :
  answer post w flag_key default_value
  = (Return (httpx_Response 200 body_text body_bytes), n) ->
  exists e,
    (e = TypeError "'Response' object is not subscriptable"
     \/ json_loads body_text = Raise e)
    /\ let out :=
         (@Raise pyval e,
          after_post w (request_for (self w) flag_key default_value) n) in
       (isinstance_bool default_value || is_none default_value = true ->
        evaluate_boolean flag_key default_value assignment_id w = out)
       /\ (isinstance_str default_value || is_none default_value = true ->
           evaluate_string flag_key default_value assignment_id w = out).
Proof.
  intros Ha.
  destruct (json_loads body_text) as [body | e] eqn:Ej.
  - exists (TypeError "'Response' object is not subscriptable").
    split; [now left |].
    assert (evaluate flag_key default_value assignment_id w
            = (Raise (TypeError "'Response' object is not subscriptable"),
               after_post w (request_for (self w) flag_key default_value) n))
      as E
        by (now apply evaluate_subscript_fails
              with (resp := httpx_Response 200 body_text body_bytes)
                   (body := body)).
    split; intros Hd;
      [rewrite boolean_delegates by exact Hd
      | rewrite string_delegates by exact Hd]; exact E.
  - exists e. split; [now right |].
    assert (evaluate flag_key default_value assignment_id w
            = (Raise e,
               after_post w (request_for (self w) flag_key default_value) n))
      as E
        by (now apply evaluate_undecodable
              with (resp := httpx_Response 200 body_text body_bytes)).
    split; intros Hd;
      [rewrite boolean_delegates by exact Hd
      | rewrite string_delegates by exact Hd]; exact E.
Qed.

End Further.

(** ** Concrete exchanges for the further properties *)

(** A found flag with payload [True] and default [False]: the value
    returned is the payload of the decoded body. *)
Lemma X2_witness :
  (PBool true = PBool false
   \/ exists resp body,
       fst (answer scripted_post
              (world0 [Return (mapping_Response 200 body_found
                                 [("flagValue", PStr "v1")])])
              "my-flag" (PBool false))
       = Return resp
       /\ status_code resp = 200%Z
       /\ sample_loads (text resp) = Return body
       /\ py_getitem body "payload" = Return (PBool true))
  /\ (PBool false <> PNone -> PBool true <> PNone).
Proof.
  refine (X2_result_is_default_or_non_null_payload
            scripted_post sample_loads "my-flag" (PBool false) PNone
            (world0 [Return (mapping_Response 200 body_found
                               [("flagValue", PStr "v1")])])
            (PBool true) (or_introl eq_refl)).
Defined.

(** A transport with nothing left to replay refuses the connection. *)
Lemma X4_witness :
  evaluate_boolean_variation scripted_post sample_loads
    "my-flag" (PBool true) PNone (world0 [])
  = (Raise (TransportError "connection refused"),
     mkWorld (mkClient 1%nat "prod") []
             [request_for (mkClient 1%nat "prod") "my-flag" (PBool true)] []).
Proof.
  refine (proj1 (X4_transport_failure_reaches_the_caller
                   scripted_post sample_loads "my-flag" (PBool true) PNone
                   (world0 []) (TransportError "connection refused") []
                   eq_refl) eq_refl).
Defined.

(** HTTP 503 with body [server error]. *)
Lemma X5_witness :
  log (snd (_evaluate_feature_flag_variation scripted_post sample_loads
              "my-flag" (PBool true) PNone (world0 [Return unavailable])))
  = [mkLog ERROR
       "Failed to evaluate feature flag variation. Using the default_value=True. Error message: b'server error'. "].
Proof.
  refine (X5_plain_content_is_logged_literally
            scripted_post sample_loads "my-flag" (PBool true) PNone
            (world0 [Return unavailable]) unavailable [] eq_refl _ eq_refl).
  discriminate.
Defined.

(** Two calls in a row against a server that is down both times. *)
Lemma X7_witness :
  sent (snd ((v1 <- evaluate_boolean_variation scripted_post sample_loads
                      "my-flag" (PBool true) PNone ;;
              v2 <- evaluate_boolean_variation scripted_post sample_loads
                      "my-flag" (PBool true) PNone ;;
              ret (v1, v2))
               (world0 [Return unavailable; Return unavailable])))
  = [request_for (mkClient 1%nat "prod") "my-flag" (PBool true);
     request_for (mkClient 1%nat "prod") "my-flag" (PBool true)]
  /\ fst ((v1 <- evaluate_boolean_variation scripted_post sample_loads
                   "my-flag" (PBool true) PNone ;;
           v2 <- evaluate_boolean_variation scripted_post sample_loads
                   "my-flag" (PBool true) PNone ;;
           ret (v1, v2))
            (world0 [Return unavailable; Return unavailable]))
     = Return (PBool true, PBool true).
Proof.
  destruct (X7_repeated_call_asks_again
              scripted_post sample_loads
              (evaluate_boolean_variation scripted_post sample_loads
                 "my-flag" (PBool true) PNone)
              "my-flag" (PBool true) PNone
              (world0 [Return unavailable; Return unavailable])
              (PBool true) (or_introl eq_refl) eq_refl) as [Hs Hr].
  split; [exact Hs | exact (Hr eq_refl)].
Defined.

(** HTTP 200 from [httpx] with a found flag, through the string entry
    point. *)
Lemma X10_witness :
  exists e,
    (e = TypeError "'Response' object is not subscriptable"
     \/ sample_loads body_found = Raise e)
    /\ evaluate_string_variation scripted_post sample_loads
         "my-flag" (PStr "fallback") PNone
         (world0 [Return (ok_response body_found)])
       = (Raise e,
          mkWorld (mkClient 1%nat "prod") []
                  [request_for (mkClient 1%nat "prod") "my-flag" (PStr "fallback")]
                  []).
Proof.
  destruct (X10_httpx_ok_response_never_returns
              scripted_post sample_loads "my-flag" (PStr "fallback") PNone
              (world0 [Return (ok_response body_found)])
              body_found (list_byte_of_string body_found) []
              eq_refl) as (e & He & _ & Hs).
  exists e. split; [exact He | exact (Hs eq_refl)].
Defined.
